(** * Mount lookup filters: [ansible/filter_plugins/mounts.py]

    A shallow embedding of the three Jinja filters of the plugin
    ([device_for_mount], [uuid_for_mount], [to_systemd_mount_unit]) and of
    the registration table [FilterModule.filters], followed by the
    properties the specification states about them.

    Python data is modelled as the code uses it:
    - a mount record is a [dict] with string keys, here a [gmap string value];
      a missing key makes [m[key]] raise [KeyError];
    - [mounts] is a list of such records, scanned in order by the [for] loop;
    - the optional [fstype] argument is an [option string], [None] being the
      default value of the keyword argument;
    - a call either returns a value or raises: [result].

    Strings are Rocq strings (sequences of bytes).  The only characters the
    code inspects are ['/'] and ['-'], which are single bytes that never
    occur inside a multi-byte UTF-8 sequence, so reading a Python [str]
    through its UTF-8 encoding changes nothing for these functions. *)

From Stdlib Require Import String Ascii ZArith.
From stdpp Require Import base option list gmap strings.

(** ** Python values and exceptions *)

(** The values a fact dictionary holds that matter here: strings, integers
    (sizes, inode counts) and [None]. *)
Inductive value : Type :=
  | VStr (s : string)
  | VInt (n : Z)
  | VNone.

#[global] Instance value_eq_dec : EqDecision value.
Proof. solve_decision. Defined.

(** [a == b] on these values: equal only when of the same kind and equal. *)
Definition py_eq (a b : value) : bool := bool_decide (a = b).

(** The exceptions that can leave the module: the lookup failure the filters
    raise themselves, [KeyError] from subscripting a dict, and [TypeError]
    from iterating or subscripting an object of the wrong kind (which only
    the store model below can express: here the arguments are typed). *)
Inductive error : Type :=
  | AnsibleFilterError (msg : string)
  | KeyError (key : string)
  | TypeError.

Inductive result (A : Type) : Type :=
  | Ok (a : A)
  | Raise (e : error).
Arguments Ok {A} a.
Arguments Raise {A} e.

(** Sequencing: an exception raised by the first computation propagates. *)
#[global] Instance result_bind : MBind result := λ A B k r,
  match r with
  | Ok a => k a
  | Raise e => Raise e
  end.

(** [m[key]] on a dict. *)
Definition getitem (m : gmap string value) (key : string) : result value :=
  match m !! key with
  | Some v => Ok v
  | None => Raise (KeyError key)
  end.

(** Truthiness of the optional [fstype] argument, as [if fstype] reads it:
    [None] and the empty string are false. *)
Definition truthy (fstype : option string) : bool :=
  match fstype with
  | None => false
  | Some f => negb (bool_decide (f = ""))
  end.

(** ** [str.lstrip(chars)] and [str.replace(old, new)] *)

Definition char_in (c : ascii) (chars : string) : bool :=
  bool_decide (c ∈ list_ascii_of_string chars).

(** [s.lstrip(chars)]: drop the longest prefix made of characters of
    [chars]. *)
Fixpoint lstrip (chars s : string) : string :=
  match s with
  | EmptyString => EmptyString
  | String c s' => if char_in c chars then lstrip chars s' else s
  end.

(** [s.replace(old, new)] for a non-empty [old]: occurrences are found from
    the left and do not overlap.  [skip] counts the characters of the
    occurrence just replaced that are still to be passed over. *)
Fixpoint replace_from (old new s : string) (skip : nat) : string :=
  match s with
  | EmptyString => EmptyString
  | String c s' =>
      match skip with
      | S k => replace_from old new s' k
      | O =>
          if String.prefix old s
          then new +:+ replace_from old new s' (String.length old - 1)
          else String c (replace_from old new s' 0)
      end
  end.

(** With an empty [old], Python inserts [new] before every character and at
    the end. *)
Fixpoint intersperse_all (new s : string) : string :=
  match s with
  | EmptyString => new
  | String c s' => new +:+ String c (intersperse_all new s')
  end.

Definition replace (old new s : string) : string :=
  match old with
  | EmptyString => intersperse_all new s
  | String _ _ => replace_from old new s 0
  end.

(** ** The filters *)

(** The text of the [AnsibleFilterError] raised when the scan finds nothing:
    [f"No active mount found for '{mountpoint}'" +
     (f" with fstype '{fstype}'" if fstype else "")]. *)
Definition not_found_message (mountpoint : string) (fstype : option string) : string :=
  "No active mount found for '" +:+ mountpoint +:+ "'" +:+
  (if truthy fstype
   then " with fstype '" +:+ default "" fstype +:+ "'"
   else "").

(** The loop condition
    [m["mount"] == mountpoint and (fstype is None or m["fstype"] == fstype)],
    with the short-circuit evaluation of [and] and [or]: [m["fstype"]] is
    read only when the mount point matched and a filter was given. *)
Definition matches (mountpoint : string) (fstype : option string)
    (m : gmap string value) : result bool :=
  mnt ← getitem m "mount";
  if py_eq mnt (VStr mountpoint)
  then match fstype with
       | None => Ok true
       | Some f => fs ← getitem m "fstype"; Ok (py_eq fs (VStr f))
       end
  else Ok false.

Fixpoint device_for_mount (mountpoint : string) (mounts : list (gmap string value))
    (fstype : option string) : result value :=
  match mounts with
  | [] => Raise (AnsibleFilterError (not_found_message mountpoint fstype))
  | m :: rest =>
      hit ← matches mountpoint fstype m;
      if (hit : bool) then getitem m "device"
      else device_for_mount mountpoint rest fstype
  end.

Fixpoint uuid_for_mount (mountpoint : string) (mounts : list (gmap string value))
    : result value :=
  match mounts with
  | [] => Raise (AnsibleFilterError ("No active mount found for '" +:+ mountpoint +:+ "'"))
  | m :: rest =>
      mnt ← getitem m "mount";
      if py_eq mnt (VStr mountpoint) then getitem m "uuid"
      else uuid_for_mount mountpoint rest
  end.

Definition to_systemd_mount_unit (path : string) : string :=
  replace "/" "-" (lstrip "/" path) +:+ ".mount".

(** [FilterModule.filters]: the table handed to the templating engine.  A
    callable is tagged with its arity; the keyword argument of
    [device_for_mount] is the optional third argument. *)
Inductive callable : Type :=
  | Filter3 (f : string -> list (gmap string value) -> option string -> result value)
  | Filter2 (f : string -> list (gmap string value) -> result value)
  | Filter1 (f : string -> string).

Module FilterModule.

Definition filters : gmap string callable :=
  <["to_systemd_mount_unit" := Filter1 to_systemd_mount_unit]>
    (<["uuid_for_mount" := Filter2 uuid_for_mount]>
       (<["device_for_mount" := Filter3 device_for_mount]> ∅)).

End FilterModule.

(** ** The same code over a store of mutable objects

    In Python [mounts] is a reference to a list object whose elements are
    references to dict objects, all of them mutable and shared with the
    caller.  This model keeps that store explicit: a computation takes the
    store and returns its outcome together with the store it leaves. *)
Module Store.

Inductive object : Type :=
  | ODict (d : gmap string value)
  | OList (items : list positive).

Definition M (A : Type) : Type :=
  gmap positive object -> result A * gmap positive object.

#[global] Instance M_ret : MRet M := λ A a h, (Ok a, h).

#[global] Instance M_bind : MBind M := λ A B k c h,
  match c h with
  | (Ok a, h') => k a h'
  | (Raise e, h') => (Raise e, h')
  end.

Definition raise {A : Type} (e : error) : M A := λ h, (Raise e, h).

(** The elements a [for] loop over the list at [l] visits.  The loops of this
    module write nothing, so the elements are those the list holds when the
    loop starts. *)
Definition iter (l : positive) : M (list positive) := λ h,
  match h !! l with
  | Some (OList items) => (Ok items, h)
  | _ => (Raise TypeError, h)
  end.

(** [m[key]] on the dict at [l]. *)
Definition getitem (l : positive) (key : string) : M value := λ h,
  match h !! l with
  | Some (ODict d) =>
      match d !! key with
      | Some v => (Ok v, h)
      | None => (Raise (KeyError key), h)
      end
  | _ => (Raise TypeError, h)
  end.

(** [m[key] = v] on the dict at [l]: the one primitive that writes.  None of
    the filters uses it; it is here to show what a mutation looks like in
    this model. *)
Definition setitem (l : positive) (key : string) (v : value) : M unit := λ h,
  match h !! l with
  | Some (ODict d) => (Ok tt, <[l := ODict (<[key := v]> d)]> h)
  | _ => (Raise TypeError, h)
  end.

Definition matches (mountpoint : string) (fstype : option string)
    (m : positive) : M bool :=
  mnt ← getitem m "mount";
  if py_eq mnt (VStr mountpoint)
  then match fstype with
       | None => mret true
       | Some f => fs ← getitem m "fstype"; mret (py_eq fs (VStr f))
       end
  else mret false.

Fixpoint device_scan (mountpoint : string) (items : list positive)
    (fstype : option string) : M value :=
  match items with
  | [] => raise (AnsibleFilterError (not_found_message mountpoint fstype))
  | m :: rest =>
      hit ← matches mountpoint fstype m;
      if (hit : bool) then getitem m "device"
      else device_scan mountpoint rest fstype
  end.

Definition device_for_mount (mountpoint : string) (mounts : positive)
    (fstype : option string) : M value :=
  items ← iter mounts; device_scan mountpoint items fstype.

Fixpoint uuid_scan (mountpoint : string) (items : list positive) : M value :=
  match items with
  | [] => raise (AnsibleFilterError ("No active mount found for '" +:+ mountpoint +:+ "'"))
  | m :: rest =>
      mnt ← getitem m "mount";
      if py_eq mnt (VStr mountpoint) then getitem m "uuid"
      else uuid_scan mountpoint rest
  end.

Definition uuid_for_mount (mountpoint : string) (mounts : positive) : M value :=
  items ← iter mounts; uuid_scan mountpoint items.

(** A [str] is immutable: the conversion reads its argument and builds a new
    string. *)
Definition to_systemd_mount_unit (path : string) : M string :=
  mret (to_systemd_mount_unit path).

(** The records a list of references denotes in a store, when every
    reference is to a dict. *)
Definition deref (h : gmap positive object) (l : positive)
    : option (gmap string value) :=
  match h !! l with
  | Some (ODict d) => Some d
  | _ => None
  end.

Definition records (h : gmap positive object) (items : list positive)
    : option (list (gmap string value)) :=
  mapM (deref h) items.

(** A computation that leaves every store as it found it. *)
Definition read_only {A : Type} (c : M A) : Prop :=
  ∀ h, (c h).2 = h.

End Store.

(** ** Notions the specification uses *)

(** The input contract: a mount record carries the four fields. *)
Definition well_formed (m : gmap string value) : Prop :=
  is_Some (m !! "mount") ∧ is_Some (m !! "device") ∧
  is_Some (m !! "fstype") ∧ is_Some (m !! "uuid").

(** The record's [mount] field equals the queried mount point. *)
Definition has_mount (mountpoint : string) (m : gmap string value) : Prop :=
  m !! "mount" = Some (VStr mountpoint).

#[global] Instance has_mount_dec mountpoint m : Decision (has_mount mountpoint m).
Proof. unfold has_mount. apply _. Defined.

(** The first record in list order whose [mount] equals the mount point. *)
Definition first_with_mount (mountpoint : string)
    (mounts : list (gmap string value)) : option (gmap string value) :=
  head (filter (has_mount mountpoint) mounts).

(** The query predicate: the mount point matches and, when a filter is
    given, so does the filesystem type. *)
Definition selects (mountpoint : string) (fstype : option string)
    (m : gmap string value) : Prop :=
  has_mount mountpoint m ∧
  match fstype with
  | None => True
  | Some f => m !! "fstype" = Some (VStr f)
  end.

#[global] Instance selects_dec mountpoint fstype m :
  Decision (selects mountpoint fstype m).
Proof. unfold selects. destruct fstype; apply _. Defined.

(** [sub] occurs in [s]. *)
Definition contains (sub s : string) : Prop :=
  ∃ pre post, s = pre +:+ sub +:+ post.

(** The unit name as the specification words it: strip the leading slashes,
    turn every remaining slash into a dash, append [.mount]. *)
Fixpoint strip_leading_slashes (s : string) : string :=
  match s with
  | String "/" s' => strip_leading_slashes s'
  | _ => s
  end.

Fixpoint slashes_to_dashes (s : string) : string :=
  match s with
  | EmptyString => EmptyString
  | String c s' => String (if Ascii.eqb c "/" then "-"%char else c) (slashes_to_dashes s')
  end.

Definition unit_name_spec (path : string) : string :=
  slashes_to_dashes (strip_leading_slashes path) +:+ ".mount".

Definition starts_with_slash (s : string) : bool :=
  match s with
  | String "/" _ => true
  | _ => false
  end.

(** The scenario of the specification, and a second disk at the same mount
    point. *)
Definition data_record : gmap string value :=
  <["uuid" := VStr "abc-123"]> (<["fstype" := VStr "ext4"]>
    (<["device" := VStr "/dev/sda1"]> (<["mount" := VStr "/data"]> ∅))).

Definition data_record' : gmap string value :=
  <["uuid" := VStr "def-456"]> (<["fstype" := VStr "xfs"]>
    (<["device" := VStr "/dev/sdb1"]> (<["mount" := VStr "/data"]> ∅))).

Definition root_record : gmap string value :=
  <["uuid" := VStr "000-111"]> (<["fstype" := VStr "btrfs"]>
    (<["device" := VStr "/dev/nvme0n1p2"]> (<["mount" := VStr "/"]> ∅))).

(** A record as a pseudo file system may report it: no [fstype]. *)
Definition boot_record : gmap string value :=
  <["uuid" := VStr "999-888"]>
    (<["device" := VStr "/dev/sda2"]> (<["mount" := VStr "/boot"]> ∅)).

(** The loop goes on to the next record: the condition was evaluated without
    an exception and is false. *)
Definition passed_over (mountpoint : string) (fstype : option string)
    (m : gmap string value) : Prop :=
  matches mountpoint fstype m = Ok false.

(** The subscripts [device_for_mount] evaluates on a record it examines, and
    the key each one needs: ["mount"] always, ["fstype"] once the mount
    point matched and a filter is given, ["device"] once the record is
    selected. *)
Definition device_lookup_lacks (mountpoint : string) (fstype : option string)
    (m : gmap string value) (key : string) : Prop :=
  (key = "mount" ∧ m !! "mount" = None) ∨
  (key = "fstype" ∧ has_mount mountpoint m ∧ is_Some fstype ∧ m !! "fstype" = None) ∨
  (key = "device" ∧ selects mountpoint fstype m ∧ m !! "device" = None).

(** The same for [uuid_for_mount]. *)
Definition uuid_lookup_lacks (mountpoint : string)
    (m : gmap string value) (key : string) : Prop :=
  (key = "mount" ∧ m !! "mount" = None) ∨
  (key = "uuid" ∧ has_mount mountpoint m ∧ m !! "uuid" = None).

(** A store holding the scenario: the list at 1, its two records at 2 and 3. *)
Definition scenario_store : gmap positive Store.object :=
  <[3%positive := Store.ODict data_record']>
    (<[2%positive := Store.ODict data_record]>
       (<[1%positive := Store.OList [2%positive; 3%positive]]> ∅)).

(** Two records agree on the fields [device_for_mount] reads. *)
Definition same_device_fields (a b : gmap string value) : Prop :=
  a !! "mount" = b !! "mount" ∧ a !! "fstype" = b !! "fstype" ∧
  a !! "device" = b !! "device".

(** Two records agree on the fields [uuid_for_mount] reads. *)
Definition same_uuid_fields (a b : gmap string value) : Prop :=
  a !! "mount" = b !! "mount" ∧ a !! "uuid" = b !! "uuid".

(** Every character of [s] is a slash. *)
Definition all_slashes (s : string) : Prop :=
  Forall (λ c, c = "/"%char) (list_ascii_of_string s).

(** The character [c] does not occur in [s]. *)
Definition free_of (c : ascii) (s : string) : Prop :=
  c ∉ list_ascii_of_string s.

Example unit_mnt_foo : to_systemd_mount_unit "/mnt/foo" = "mnt-foo.mount".
Proof. reflexivity. Qed.

Example replace_overlap : replace "aa" "b" "aaaaa" = "bba".
Proof. reflexivity. Qed.

Example replace_empty_old : replace "" "-" "abc" = "-a-b-c-".
Proof. reflexivity. Qed.

Example lstrip_set : lstrip "/." "./.a/b" = "a/b".
Proof. reflexivity. Qed.

Example scenario_device :
  device_for_mount "/data" [data_record] None = Ok (VStr "/dev/sda1").
Proof. vm_compute. reflexivity. Qed.

Example scenario_uuid :
  uuid_for_mount "/data" [data_record] = Ok (VStr "abc-123").
Proof. vm_compute. reflexivity. Qed.

Example scenario_missing :
  device_for_mount "/missing" [data_record] None
  = Raise (AnsibleFilterError "No active mount found for '/missing'").
Proof. vm_compute. reflexivity. Qed.

(** ** Subscripting and the loop condition *)

Lemma getitem_Some (m : gmap string value) key v :
  m !! key = Some v → getitem m key = Ok v.
Proof. intros H. unfold getitem. by rewrite H. Qed.

Lemma getitem_None (m : gmap string value) key :
  m !! key = None → getitem m key = Raise (KeyError key).
Proof. intros H. unfold getitem. by rewrite H. Qed.

Lemma getitem_Ok_inv (m : gmap string value) key v :
  getitem m key = Ok v → m !! key = Some v.
Proof. unfold getitem. destruct (m !! key); congruence. Qed.

Lemma py_eq_true a b : py_eq a b = true ↔ a = b.
Proof. unfold py_eq. apply bool_decide_eq_true. Qed.

(** On a record that has its fields the condition never raises and decides
    the query predicate. *)
Lemma matches_well_formed mountpoint fstype m :
  well_formed m →
  matches mountpoint fstype m = Ok (bool_decide (selects mountpoint fstype m)).
Proof.
  intros ([v Hm] & _ & [w Hf] & _).
  assert (bool_decide (selects mountpoint fstype m) =
          bool_decide (v = VStr mountpoint) &&
          match fstype with
          | Some f => bool_decide (w = VStr f)
          | None => true
          end) as ->.
  { destruct (decide (selects mountpoint fstype m)) as [Hs|Hs];
      [rewrite (bool_decide_true _ Hs) | rewrite (bool_decide_false _ Hs)];
      unfold selects, has_mount in Hs; rewrite Hm in Hs;
      destruct fstype; try rewrite Hf in Hs;
      repeat case_bool_decide; cbn; try done; subst; exfalso; intuition congruence. }
  unfold matches, getitem, py_eq. rewrite Hm. cbn.
  case_bool_decide; [|done].
  destruct fstype; [|done]. by rewrite Hf.
Qed.

(** Whenever the condition holds, the record satisfies the query predicate,
    also on a record that lacks other fields. *)
Lemma matches_true_selects mountpoint fstype m :
  matches mountpoint fstype m = Ok true → selects mountpoint fstype m.
Proof.
  unfold matches, selects, has_mount, getitem.
  destruct (m !! "mount") as [v|]; cbn; [|done].
  destruct (py_eq v (VStr mountpoint)) eqn:Hv; [|done].
  apply py_eq_true in Hv as ->.
  destruct fstype as [f|]; [|done].
  destruct (m !! "fstype") as [w|]; cbn; [|done].
  intros [= Hw]. apply py_eq_true in Hw as ->. done.
Qed.

Lemma selects_matches mountpoint fstype m :
  selects mountpoint fstype m → matches mountpoint fstype m = Ok true.
Proof.
  intros [Hm Hf]. unfold matches, getitem, py_eq. rewrite Hm. cbn.
  rewrite bool_decide_true by done.
  destruct fstype as [f|]; [|done].
  rewrite Hf. cbn. by rewrite bool_decide_true.
Qed.

(** The condition raises only a [KeyError], for ["mount"], or for
    ["fstype"] on a record with the mount point when a filter is given. *)
Lemma matches_Raise_inv mountpoint fstype m e :
  matches mountpoint fstype m = Raise e →
  ∃ key, e = KeyError key ∧
    ((key = "mount" ∧ m !! "mount" = None) ∨
     (key = "fstype" ∧ has_mount mountpoint m ∧ is_Some fstype ∧
      m !! "fstype" = None)).
Proof.
  unfold matches, has_mount, getitem.
  destruct (m !! "mount") as [v|] eqn:Hm; cbn.
  - destruct (py_eq v (VStr mountpoint)) eqn:Hv; [|done].
    apply py_eq_true in Hv as ->.
    destruct fstype as [f|]; [|done].
    destruct (m !! "fstype") as [w|] eqn:Hf; cbn; [done|].
    intros [= <-]. exists "fstype". split; [done|]. right. eauto.
  - intros [= <-]. exists "mount". split; [done|]. by left.
Qed.

(** The condition of [uuid_for_mount] is that of [device_for_mount] without
    a filter. *)
Lemma uuid_for_mount_cons mountpoint m rest :
  uuid_for_mount mountpoint (m :: rest) =
  (hit ← matches mountpoint None m;
   if (hit : bool) then getitem m "uuid" else uuid_for_mount mountpoint rest).
Proof.
  cbn. unfold matches.
  destruct (getitem m "mount") as [v|e]; cbn; [|done].
  by destruct (py_eq v (VStr mountpoint)).
Qed.

(** ** The scan *)

(** Records the condition rejects are passed over. *)
Lemma device_for_mount_skip mountpoint fstype pre rest :
  Forall (λ x, matches mountpoint fstype x = Ok false) pre →
  device_for_mount mountpoint (pre ++ rest)%list fstype
  = device_for_mount mountpoint rest fstype.
Proof.
  induction 1 as [|x pre Hx _ IH]; [done|].
  cbn. by rewrite Hx.
Qed.

Lemma uuid_for_mount_skip mountpoint pre rest :
  Forall (λ x, matches mountpoint None x = Ok false) pre →
  uuid_for_mount mountpoint (pre ++ rest)%list = uuid_for_mount mountpoint rest.
Proof.
  induction 1 as [|x pre Hx _ IH]; [done|].
  rewrite <- app_comm_cons, uuid_for_mount_cons, Hx. done.
Qed.

(** On well-formed records the scan returns the [device] of the first record
    the query predicate selects, and raises the lookup failure when there is
    none. *)
Lemma device_for_mount_well_formed mountpoint fstype mounts :
  Forall well_formed mounts →
  device_for_mount mountpoint mounts fstype =
  match head (filter (selects mountpoint fstype) mounts) with
  | Some r => getitem r "device"
  | None => Raise (AnsibleFilterError (not_found_message mountpoint fstype))
  end.
Proof.
  induction 1 as [|m rest Hm _ IH]; [done|].
  cbn [device_for_mount]. rewrite (matches_well_formed _ _ _ Hm), filter_cons.
  destruct (decide (selects mountpoint fstype m)) as [Hsel|Hsel].
  - by rewrite (bool_decide_true _ Hsel).
  - by rewrite (bool_decide_false _ Hsel).
Qed.

Lemma uuid_for_mount_well_formed mountpoint mounts :
  Forall well_formed mounts →
  uuid_for_mount mountpoint mounts =
  match head (filter (selects mountpoint None) mounts) with
  | Some r => getitem r "uuid"
  | None => Raise (AnsibleFilterError ("No active mount found for '" +:+ mountpoint +:+ "'"))
  end.
Proof.
  induction 1 as [|m rest Hm _ IH]; [done|].
  rewrite uuid_for_mount_cons, (matches_well_formed _ _ _ Hm), filter_cons.
  destruct (decide (selects mountpoint None m)) as [Hsel|Hsel].
  - by rewrite (bool_decide_true _ Hsel).
  - by rewrite (bool_decide_false _ Hsel).
Qed.

Lemma first_with_mount_selects mountpoint mounts :
  first_with_mount mountpoint mounts
  = head (filter (selects mountpoint None) mounts).
Proof.
  unfold first_with_mount. f_equal. apply list_filter_iff.
  intros m. unfold selects. tauto.
Qed.

(** The first record with the mount point, read as a position in the list:
    every record before it has another mount point. *)
Lemma first_with_mount_split mountpoint mounts r :
  first_with_mount mountpoint mounts = Some r ↔
  ∃ pre post, mounts = (pre ++ r :: post)%list ∧
    Forall (λ x, ¬ has_mount mountpoint x) pre ∧ has_mount mountpoint r.
Proof.
  unfold first_with_mount. split.
  - induction mounts as [|m rest IH]; [done|].
    rewrite filter_cons. destruct (decide (has_mount mountpoint m)) as [Hm|Hm].
    + intros [= ->]. by exists [], rest.
    + intros (pre & post & -> & Hpre & Hr)%IH.
      exists (m :: pre), post. by repeat constructor.
  - intros (pre & post & -> & Hpre & Hr).
    induction Hpre as [|x pre Hx _ IH].
    + by rewrite app_nil_l, filter_cons, decide_True.
    + by rewrite <- app_comm_cons, filter_cons, decide_False.
Qed.

Lemma first_with_mount_elem_of mountpoint mounts r :
  first_with_mount mountpoint mounts = Some r → r ∈ mounts.
Proof.
  intros (pre & post & -> & _)%first_with_mount_split. set_solver.
Qed.

(** A value is returned only from a record the query predicate selects. *)
Lemma device_for_mount_Ok_inv mountpoint fstype mounts d :
  device_for_mount mountpoint mounts fstype = Ok d →
  ∃ r, r ∈ mounts ∧ selects mountpoint fstype r ∧ r !! "device" = Some d.
Proof.
  induction mounts as [|m rest IH]; [done|].
  cbn [device_for_mount].
  destruct (matches mountpoint fstype m) as [[]|e] eqn:Hm; cbn; [| |done].
  - intros Hd%getitem_Ok_inv. exists m.
    split; [set_solver|]. split; [|done]. by apply matches_true_selects.
  - intros (r & Hr & Hsel & Hd)%IH. exists r. split; [set_solver|done].
Qed.

(** When no record is selected the filtered list is empty. *)
Lemma filter_selects_nil mountpoint fstype mounts :
  (∀ r, r ∈ mounts → ¬ selects mountpoint fstype r) →
  filter (selects mountpoint fstype) mounts = [].
Proof.
  intros Hnone. induction mounts as [|m rest IH]; [done|].
  rewrite filter_cons, decide_False by (apply Hnone; set_solver).
  apply IH. intros r Hr. apply Hnone. set_solver.
Qed.

(** The only lookup failure the scan raises is the one at the end of the
    list, with the message built from the arguments. *)
Lemma device_for_mount_failure_inv mountpoint fstype mounts msg :
  device_for_mount mountpoint mounts fstype = Raise (AnsibleFilterError msg) →
  msg = not_found_message mountpoint fstype.
Proof.
  induction mounts as [|m rest IH]; cbn [device_for_mount]; [congruence|].
  destruct (matches mountpoint fstype m) as [[]|e] eqn:Hm; cbn.
  - unfold getitem. by destruct (m !! "device").
  - done.
  - intros [= ->]. by apply matches_Raise_inv in Hm as (k & [=] & _).
Qed.

(** ** The lookups *)

(** C1. For a list of mount records that holds a record whose [mount] is
    [mountpoint], [device_for_mount] without a filter returns the [device]
    of the first such record in list order: the earliest one wins. *)
Theorem device_for_mount_first_match mountpoint mounts r :
  Forall well_formed mounts →
  first_with_mount mountpoint mounts = Some r →
  ∃ d, r !! "device" = Some d ∧
       device_for_mount mountpoint mounts None = Ok d.
Proof.
  intros Hwf Hr.
  rewrite device_for_mount_well_formed by done.
  rewrite <- first_with_mount_selects, Hr.
  apply first_with_mount_elem_of in Hr.
  rewrite Forall_forall in Hwf.
  destruct (Hwf r Hr) as (_ & [d Hd] & _).
  exists d. split; [done|]. by apply getitem_Some.
Qed.

(** C2. With a filter [f], [device_for_mount] returns the [device] of a
    record only if that record has both [mount = mountpoint] and
    [fstype = f]; when no record has both, also when some record has the
    mount point with another filesystem type, the lookup failure is raised
    and no value is returned. *)
Theorem device_for_mount_fstype_filter mountpoint f mounts :
  Forall well_formed mounts →
  (∀ d, device_for_mount mountpoint mounts (Some f) = Ok d →
        ∃ r, r ∈ mounts ∧ r !! "mount" = Some (VStr mountpoint) ∧
             r !! "fstype" = Some (VStr f) ∧ r !! "device" = Some d) ∧
  ((∀ r, r ∈ mounts →
         ¬ (r !! "mount" = Some (VStr mountpoint) ∧ r !! "fstype" = Some (VStr f))) →
   device_for_mount mountpoint mounts (Some f)
   = Raise (AnsibleFilterError (not_found_message mountpoint (Some f)))).
Proof.
  intros Hwf. split.
  - intros d (r & Hr & [Hm Hf] & Hd)%device_for_mount_Ok_inv. by exists r.
  - intros Hnone.
    rewrite device_for_mount_well_formed by done.
    by rewrite filter_selects_nil.
Qed.

(** C5. [uuid_for_mount] does the lookup [device_for_mount] does without a
    filter: both settle on the first record whose [mount] is [mountpoint],
    the one returning its [uuid] and the other its [device], and both raise
    the lookup failure when no record has that mount point. *)
Theorem uuid_for_mount_first_match mountpoint mounts :
  Forall well_formed mounts →
  match first_with_mount mountpoint mounts with
  | Some r =>
      ∃ u d, r !! "uuid" = Some u ∧ r !! "device" = Some d ∧
             uuid_for_mount mountpoint mounts = Ok u ∧
             device_for_mount mountpoint mounts None = Ok d
  | None =>
      uuid_for_mount mountpoint mounts
      = Raise (AnsibleFilterError ("No active mount found for '" +:+ mountpoint +:+ "'")) ∧
      device_for_mount mountpoint mounts None
      = Raise (AnsibleFilterError ("No active mount found for '" +:+ mountpoint +:+ "'"))
  end.
Proof.
  intros Hwf.
  rewrite uuid_for_mount_well_formed, device_for_mount_well_formed by done.
  rewrite <- first_with_mount_selects.
  destruct (first_with_mount mountpoint mounts) as [r|] eqn:Hr.
  - apply first_with_mount_elem_of in Hr.
    rewrite Forall_forall in Hwf.
    destruct (Hwf r Hr) as (_ & [d Hd] & _ & [u Hu]).
    exists u, d. by rewrite (getitem_Some _ _ _ Hu), (getitem_Some _ _ _ Hd).
  - done.
Qed.

(** C9. With the empty string as filter the filter is applied: a value comes
    only from a record whose [fstype] is the empty string.  When no record
    is selected, the message of the failure names the mount point alone,
    without the [with fstype] clause: the clause is guarded by the
    truthiness of [fstype], and the empty string is false. *)
Theorem device_for_mount_empty_fstype mountpoint mounts :
  Forall well_formed mounts →
  (∀ d, device_for_mount mountpoint mounts (Some "") = Ok d →
        ∃ r, r ∈ mounts ∧ r !! "mount" = Some (VStr mountpoint) ∧
             r !! "fstype" = Some (VStr "") ∧ r !! "device" = Some d) ∧
  ((∀ r, r ∈ mounts → r !! "mount" = Some (VStr mountpoint) →
         r !! "fstype" ≠ Some (VStr "")) →
   device_for_mount mountpoint mounts (Some "")
   = Raise (AnsibleFilterError ("No active mount found for '" +:+ mountpoint +:+ "'"))) ∧
  (∀ msg, device_for_mount mountpoint mounts (Some "") = Raise (AnsibleFilterError msg) →
          msg = "No active mount found for '" +:+ mountpoint +:+ "'").
Proof.
  intros Hwf. split; [|split].
  - intros d (r & Hr & [Hm Hf] & Hd)%device_for_mount_Ok_inv. by exists r.
  - intros Hnone.
    rewrite device_for_mount_well_formed by done.
    rewrite filter_selects_nil.
    + done.
    + intros r Hr [Hm Hf]. by apply (Hnone r).
  - by intros msg ->%device_for_mount_failure_inv.
Qed.

(** ** The unit name *)

Lemma char_in_slash c : char_in c "/" = Ascii.eqb c "/".
Proof.
  unfold char_in. cbn.
  destruct (Ascii.eqb_spec c "/") as [->|Hne].
  - apply bool_decide_true. by apply list_elem_of_singleton.
  - apply bool_decide_false. by rewrite list_elem_of_singleton.
Qed.

Lemma strip_leading_slashes_cons c s :
  strip_leading_slashes (String c s)
  = if Ascii.eqb c "/" then strip_leading_slashes s else String c s.
Proof. by destruct c as [[] [] [] [] [] [] [] []]. Qed.

Lemma starts_with_slash_cons c s :
  starts_with_slash (String c s) = Ascii.eqb c "/".
Proof. by destruct c as [[] [] [] [] [] [] [] []]. Qed.

(** [lstrip("/")] strips the leading slashes. *)
Lemma lstrip_slash s : lstrip "/" s = strip_leading_slashes s.
Proof.
  induction s as [|c s IH]; [done|].
  rewrite strip_leading_slashes_cons. cbn [lstrip].
  rewrite char_in_slash, IH. done.
Qed.

Lemma prefix_empty s : String.prefix "" s = true.
Proof. by destruct s. Qed.

Lemma prefix_char c d s :
  String.prefix (String c "") (String d s) = Ascii.eqb d c.
Proof.
  cbn. destruct (ascii_dec c d) as [->|Hne].
  - by rewrite prefix_empty, Ascii.eqb_refl.
  - symmetry. apply Ascii.eqb_neq. congruence.
Qed.

(** [replace("/", "-")] turns every slash into a dash. *)
Lemma replace_slash_dash s : replace "/" "-" s = slashes_to_dashes s.
Proof.
  unfold replace.
  induction s as [|c s IH]; [done|].
  cbn [replace_from slashes_to_dashes].
  rewrite prefix_char, <- IH.
  by destruct (Ascii.eqb c "/").
Qed.

Lemma append_cons c s t : String c s +:+ t = String c (s +:+ t).
Proof. reflexivity. Qed.

Lemma slashes_to_dashes_app s t :
  slashes_to_dashes (s +:+ t) = slashes_to_dashes s +:+ slashes_to_dashes t.
Proof.
  induction s as [|c s IH]; [done|].
  rewrite append_cons. cbn [slashes_to_dashes]. by rewrite append_cons, IH.
Qed.

Lemma slashes_to_dashes_idemp s :
  slashes_to_dashes (slashes_to_dashes s) = slashes_to_dashes s.
Proof.
  induction s as [|c s IH]; [done|]. cbn. f_equal; [|exact IH].
  by destruct (Ascii.eqb_spec c "/") as [->|Hne%Ascii.eqb_neq]; [|rewrite Hne].
Qed.

Lemma strip_leading_slashes_id s :
  starts_with_slash s = false → strip_leading_slashes s = s.
Proof.
  destruct s as [|c s]; [done|].
  rewrite starts_with_slash_cons, strip_leading_slashes_cons. by intros ->.
Qed.

Lemma string_length_app s t :
  String.length (s +:+ t) = String.length s + String.length t.
Proof.
  induction s as [|c s IH]; [done|].
  rewrite append_cons. cbn [String.length]. by rewrite IH.
Qed.

Lemma to_systemd_mount_unit_unfold path :
  to_systemd_mount_unit path = unit_name_spec path.
Proof.
  unfold to_systemd_mount_unit, unit_name_spec.
  by rewrite lstrip_slash, replace_slash_dash.
Qed.

(** No unit name starts with a slash. *)
Lemma unit_name_spec_no_leading_slash path :
  starts_with_slash (unit_name_spec path) = false.
Proof.
  unfold unit_name_spec.
  destruct (strip_leading_slashes path) as [|c s]; [done|].
  cbn [slashes_to_dashes]. rewrite append_cons, starts_with_slash_cons.
  by destruct (Ascii.eqb_spec c "/") as [->|Hne%Ascii.eqb_neq].
Qed.

(** C4. For every string [path], [to_systemd_mount_unit path] is [path]
    with its leading slashes stripped, every remaining slash replaced by a
    dash, and [.mount] appended; the function is total, and maps [/mnt/foo]
    to [mnt-foo.mount] and [/] to [.mount]. *)
Theorem to_systemd_mount_unit_spec :
  (∀ path, to_systemd_mount_unit path = unit_name_spec path) ∧
  to_systemd_mount_unit "/mnt/foo" = "mnt-foo.mount" ∧
  to_systemd_mount_unit "/" = ".mount".
Proof.
  split; [apply to_systemd_mount_unit_unfold|]. by split.
Qed.

(** C6. The result of [to_systemd_mount_unit] never has a leading slash,
    for every [path]; so in particular it has none whenever re-applying the
    function gives the same string.  Re-applying it in fact appends a second
    [.mount], so the two strings always differ.  And [/a/b/c] becomes
    [a-b-c.mount]. *)
Theorem to_systemd_mount_unit_reapplied path :
  starts_with_slash (to_systemd_mount_unit path) = false ∧
  to_systemd_mount_unit (to_systemd_mount_unit path)
  = to_systemd_mount_unit path +:+ ".mount" ∧
  to_systemd_mount_unit (to_systemd_mount_unit path) ≠ to_systemd_mount_unit path ∧
  to_systemd_mount_unit "/a/b/c" = "a-b-c.mount".
Proof.
  assert (to_systemd_mount_unit (to_systemd_mount_unit path)
          = to_systemd_mount_unit path +:+ ".mount") as Hre.
  { rewrite !to_systemd_mount_unit_unfold.
    unfold unit_name_spec at 1.
    rewrite strip_leading_slashes_id by apply unit_name_spec_no_leading_slash.
    unfold unit_name_spec.
    by rewrite slashes_to_dashes_app, slashes_to_dashes_idemp. }
  split; [|split; [done|split; [|done]]].
  - rewrite to_systemd_mount_unit_unfold. apply unit_name_spec_no_leading_slash.
  - rewrite Hre. intros Heq%(f_equal String.length).
    rewrite string_length_app in Heq. cbn in Heq. lia.
Qed.

(** ** The registration table *)

(** C8. [FilterModule.filters] maps exactly the three names
    [device_for_mount], [uuid_for_mount] and [to_systemd_mount_unit], each
    to the function of that name. *)
Theorem filters_registration :
  dom FilterModule.filters
  = ({["device_for_mount"; "uuid_for_mount"; "to_systemd_mount_unit"]} : gset string) ∧
  FilterModule.filters !! "device_for_mount" = Some (Filter3 device_for_mount) ∧
  FilterModule.filters !! "uuid_for_mount" = Some (Filter2 uuid_for_mount) ∧
  FilterModule.filters !! "to_systemd_mount_unit" = Some (Filter1 to_systemd_mount_unit).
Proof.
  unfold FilterModule.filters. split.
  - rewrite !dom_insert_L, dom_empty_L. set_solver.
  - split; [|split].
    + rewrite !lookup_insert_ne by done. apply lookup_insert_eq.
    + rewrite lookup_insert_ne by done. apply lookup_insert_eq.
    + apply lookup_insert_eq.
Qed.

(** ** Key errors *)

Lemma well_formed_not_device_lookup_lacks mountpoint fstype m key :
  well_formed m → ¬ device_lookup_lacks mountpoint fstype m key.
Proof.
  intros ([? Hm] & [? Hd] & [? Hf] & _) [[_ H]|[(_ & _ & _ & H)|(_ & _ & H)]];
    congruence.
Qed.

Lemma well_formed_not_uuid_lookup_lacks mountpoint m key :
  well_formed m → ¬ uuid_lookup_lacks mountpoint m key.
Proof.
  intros ([? Hm] & _ & _ & [? Hu]) [[_ H]|(_ & _ & H)]; congruence.
Qed.

(** [device_for_mount] raises [KeyError key] exactly when the scan reaches,
    past records it passes over, a record that lacks [key] where the scan
    reads it. *)
Lemma device_for_mount_KeyError mountpoint fstype mounts key :
  device_for_mount mountpoint mounts fstype = Raise (KeyError key) ↔
  ∃ pre m post, mounts = (pre ++ m :: post)%list ∧
    Forall (passed_over mountpoint fstype) pre ∧
    device_lookup_lacks mountpoint fstype m key.
Proof.
  split.
  - induction mounts as [|m rest IH]; [done|].
    cbn [device_for_mount].
    destruct (matches mountpoint fstype m) as [[]|e] eqn:Hm; cbn.
    + unfold getitem. destruct (m !! "device") eqn:Hd; [done|].
      intros [= <-]. exists [], m, rest. split; [done|]. split; [done|].
      right; right. eauto using matches_true_selects.
    + intros (pre & m' & post & -> & Hpre & Hlacks)%IH.
      exists (m :: pre), m', post. split; [done|]. split; [|done].
      by constructor.
    + intros [= ->]. apply matches_Raise_inv in Hm as (k & [= <-] & Hk).
      exists [], m, rest. split; [done|]. split; [done|].
      destruct Hk as [?|?]; [by left|by right; left].
  - intros (pre & m & post & -> & Hpre & Hlacks).
    rewrite device_for_mount_skip by done. cbn [device_for_mount].
    unfold device_lookup_lacks in Hlacks.
    destruct Hlacks as [[-> Hm]|[(-> & Hm & [f ->] & Hf)|(-> & Hsel & Hd)]].
    + unfold matches, getitem. by rewrite Hm.
    + unfold matches, getitem, py_eq. rewrite Hm. cbn.
      rewrite bool_decide_true by done. by rewrite Hf.
    + rewrite selects_matches by done. cbn. by apply getitem_None.
Qed.

Lemma uuid_for_mount_KeyError mountpoint mounts key :
  uuid_for_mount mountpoint mounts = Raise (KeyError key) ↔
  ∃ pre m post, mounts = (pre ++ m :: post)%list ∧
    Forall (passed_over mountpoint None) pre ∧
    uuid_lookup_lacks mountpoint m key.
Proof.
  split.
  - induction mounts as [|m rest IH]; [done|].
    rewrite uuid_for_mount_cons.
    destruct (matches mountpoint None m) as [[]|e] eqn:Hm; cbn.
    + unfold getitem. destruct (m !! "uuid") eqn:Hu; [done|].
      intros [= <-]. exists [], m, rest. split; [done|]. split; [done|].
      right. split; [done|]. split; [|done].
      by apply matches_true_selects in Hm as [? _].
    + intros (pre & m' & post & -> & Hpre & Hlacks)%IH.
      exists (m :: pre), m', post. split; [done|]. split; [|done].
      by constructor.
    + intros [= ->]. apply matches_Raise_inv in Hm as (k & [= <-] & Hk).
      exists [], m, rest. split; [done|]. split; [done|].
      destruct Hk as [?|(_ & _ & [? ?] & _)]; [by left|done].
  - intros (pre & m & post & -> & Hpre & Hlacks).
    rewrite uuid_for_mount_skip by done. rewrite uuid_for_mount_cons.
    destruct Hlacks as [[-> Hm]|(-> & Hm & Hu)].
    + unfold matches, getitem. by rewrite Hm.
    + rewrite selects_matches by done. cbn. by apply getitem_None.
Qed.

(** C10, as amended.  A lookup raises [KeyError key] exactly when a record
    it examines (every earlier record having been passed over) lacks [key]
    at the point where the code reads it: ["mount"] on any examined record;
    ["fstype"] on an examined record whose [mount] equals the mount point,
    when a filter is given; ["device"] or ["uuid"] on the matching record.
    A record with another mount point is passed over without its [fstype]
    being read.  When every record carries the four fields no [KeyError]
    is raised. *)
Theorem key_error_exactly_on_missing_field mountpoint fstype mounts :
  (Forall well_formed mounts →
   ∀ key, device_for_mount mountpoint mounts fstype ≠ Raise (KeyError key) ∧
          uuid_for_mount mountpoint mounts ≠ Raise (KeyError key)) ∧
  (∀ key, device_for_mount mountpoint mounts fstype = Raise (KeyError key) ↔
     ∃ pre m post, mounts = (pre ++ m :: post)%list ∧
       Forall (passed_over mountpoint fstype) pre ∧
       device_lookup_lacks mountpoint fstype m key) ∧
  (∀ key, uuid_for_mount mountpoint mounts = Raise (KeyError key) ↔
     ∃ pre m post, mounts = (pre ++ m :: post)%list ∧
       Forall (passed_over mountpoint None) pre ∧
       uuid_lookup_lacks mountpoint m key).
Proof.
  split; [|split; intros key;
           [apply device_for_mount_KeyError|apply uuid_for_mount_KeyError]].
  intros Hwf key. rewrite Forall_forall in Hwf. split.
  - intros (pre & m & post & -> & _ & Hlacks)%device_for_mount_KeyError.
    apply (well_formed_not_device_lookup_lacks _ _ _ _ (Hwf m ltac:(set_solver)) Hlacks).
  - intros (pre & m & post & -> & _ & Hlacks)%uuid_for_mount_KeyError.
    apply (well_formed_not_uuid_lookup_lacks _ _ _ (Hwf m ltac:(set_solver)) Hlacks).
Qed.

(** ** The store is only read *)

Lemma store_bind_run {A B : Type} (c : Store.M A) (k : A → Store.M B) h :
  (c ≫= k) h =
  match c h with
  | (Ok a, h') => k a h'
  | (Raise e, h') => (Raise e, h')
  end.
Proof. reflexivity. Qed.

Lemma read_only_ret {A : Type} (a : A) : Store.read_only (mret a).
Proof. by intros h. Qed.

Lemma read_only_raise {A : Type} e : Store.read_only (Store.raise (A:=A) e).
Proof. by intros h. Qed.

Lemma read_only_bind {A B : Type} (c : Store.M A) (k : A → Store.M B) :
  Store.read_only c → (∀ a, Store.read_only (k a)) →
  Store.read_only (c ≫= k).
Proof.
  intros Hc Hk h. rewrite store_bind_run.
  specialize (Hc h). destruct (c h) as [[a|e] h']; cbn in Hc; subst h'.
  - apply Hk.
  - done.
Qed.

Lemma read_only_iter l : Store.read_only (Store.iter l).
Proof. intros h. unfold Store.iter. by destruct (h !! l) as [[]|]. Qed.

Lemma read_only_getitem l key : Store.read_only (Store.getitem l key).
Proof.
  intros h. unfold Store.getitem.
  destruct (h !! l) as [[d|]|]; [|done..]. by destruct (d !! key).
Qed.

Create HintDb read_only discriminated.
#[local] Hint Resolve read_only_ret read_only_raise read_only_iter
  read_only_getitem : read_only.

Lemma read_only_matches mountpoint fstype l :
  Store.read_only (Store.matches mountpoint fstype l).
Proof.
  apply read_only_bind; [auto with read_only|]. intros v.
  destruct (py_eq v (VStr mountpoint)); [|auto with read_only].
  destruct fstype as [f|]; [|auto with read_only].
  apply read_only_bind; auto with read_only.
Qed.

Lemma read_only_device_scan mountpoint items fstype :
  Store.read_only (Store.device_scan mountpoint items fstype).
Proof.
  induction items as [|l rest IH]; [apply read_only_raise|].
  apply read_only_bind; [apply read_only_matches|].
  intros []; [auto with read_only|apply IH].
Qed.

Lemma read_only_uuid_scan mountpoint items :
  Store.read_only (Store.uuid_scan mountpoint items).
Proof.
  induction items as [|l rest IH]; [apply read_only_raise|].
  apply read_only_bind; [auto with read_only|].
  intros v. destruct (py_eq v (VStr mountpoint)); [auto with read_only|apply IH].
Qed.

(** A write is visible in this model: [setitem] changes the store. *)
Example setitem_changes_store :
  (Store.setitem 2 "device" (VStr "/dev/sdz") scenario_store).2 ≠ scenario_store.
Proof.
  intros Heq. apply (f_equal (λ h, h !! 2%positive)) in Heq.
  vm_compute in Heq. discriminate.
Qed.

(** On a store where [mounts] is a list of dicts, the store model computes
    what the functions over the records compute. *)
Lemma store_getitem_deref h l d key :
  Store.deref h l = Some d → Store.getitem l key h = (getitem d key, h).
Proof.
  unfold Store.deref, Store.getitem, getitem.
  destruct (h !! l) as [[d'|]|]; [|done..]. intros [= ->]. by destruct (d !! key).
Qed.

Lemma store_matches_deref h l d mountpoint fstype :
  Store.deref h l = Some d →
  Store.matches mountpoint fstype l h = (matches mountpoint fstype d, h).
Proof.
  intros Hd. unfold Store.matches, matches.
  rewrite store_bind_run, (store_getitem_deref _ _ _ _ Hd).
  destruct (getitem d "mount") as [v|e]; cbn; [|done].
  destruct (py_eq v (VStr mountpoint)); [|done].
  destruct fstype as [f|]; [|done].
  rewrite store_bind_run, (store_getitem_deref _ _ _ _ Hd).
  by destruct (getitem d "fstype").
Qed.

Lemma store_device_scan_refines h items ds mountpoint fstype :
  Store.records h items = Some ds →
  Store.device_scan mountpoint items fstype h
  = (device_for_mount mountpoint ds fstype, h).
Proof.
  unfold Store.records. rewrite mapM_Some.
  induction 1 as [|l d items ds Hd _ IH]; [done|].
  cbn [Store.device_scan device_for_mount].
  rewrite store_bind_run, (store_matches_deref _ _ _ _ _ Hd).
  destruct (matches mountpoint fstype d) as [[]|e]; cbn; [|done..].
  by apply store_getitem_deref.
Qed.

Lemma store_uuid_scan_refines h items ds mountpoint :
  Store.records h items = Some ds →
  Store.uuid_scan mountpoint items h = (uuid_for_mount mountpoint ds, h).
Proof.
  unfold Store.records. rewrite mapM_Some.
  induction 1 as [|l d items ds Hd _ IH]; [done|].
  cbn [Store.uuid_scan uuid_for_mount].
  rewrite store_bind_run, (store_getitem_deref _ _ _ _ Hd).
  destruct (getitem d "mount") as [v|e]; cbn; [|done].
  destruct (py_eq v (VStr mountpoint)); [|done].
  by apply store_getitem_deref.
Qed.

Lemma store_device_for_mount_refines h mounts items ds mountpoint fstype :
  h !! mounts = Some (Store.OList items) →
  Store.records h items = Some ds →
  Store.device_for_mount mountpoint mounts fstype h
  = (device_for_mount mountpoint ds fstype, h).
Proof.
  intros Hl Hds. unfold Store.device_for_mount.
  rewrite store_bind_run. unfold Store.iter. rewrite Hl.
  by apply store_device_scan_refines.
Qed.

Lemma store_uuid_for_mount_refines h mounts items ds mountpoint :
  h !! mounts = Some (Store.OList items) →
  Store.records h items = Some ds →
  Store.uuid_for_mount mountpoint mounts h
  = (uuid_for_mount mountpoint ds, h).
Proof.
  intros Hl Hds. unfold Store.uuid_for_mount.
  rewrite store_bind_run. unfold Store.iter. rewrite Hl.
  by apply store_uuid_scan_refines.
Qed.

Example store_scenario_device :
  Store.device_for_mount "/data" 1 (Some "xfs") scenario_store
  = (Ok (VStr "/dev/sdb1"), scenario_store).
Proof.
  by rewrite (store_device_for_mount_refines _ _ [2; 3]%positive
                [data_record; data_record']).
Qed.

(** C7. Whatever the store, and whatever the arguments, a call of
    [device_for_mount], [uuid_for_mount] or [to_systemd_mount_unit]
    leaves the store as it found it: the list [mounts] and every record
    are unchanged, whether the call returns or raises. *)
Theorem filters_leave_store_unchanged h mountpoint mounts fstype path :
  (Store.device_for_mount mountpoint mounts fstype h).2 = h ∧
  (Store.uuid_for_mount mountpoint mounts h).2 = h ∧
  (Store.to_systemd_mount_unit path h).2 = h.
Proof.
  split; [|split].
  - apply read_only_bind; [apply read_only_iter|].
    intros items. apply read_only_device_scan.
  - apply read_only_bind; [apply read_only_iter|].
    intros items. apply read_only_uuid_scan.
  - done.
Qed.

(** ** The failure message *)

Lemma append_assoc s t u : (s +:+ t) +:+ u = s +:+ t +:+ u.
Proof.
  induction s as [|c s IH]; [done|]. by rewrite !append_cons, IH.
Qed.

Lemma contains_infix pre sub post : contains sub (pre +:+ sub +:+ post).
Proof. by exists pre, post. Qed.

Lemma not_found_message_contains_mountpoint mountpoint fstype :
  contains mountpoint (not_found_message mountpoint fstype).
Proof. apply contains_infix. Qed.

Lemma not_found_message_contains_fstype mountpoint f :
  f ≠ "" →
  contains (" with fstype '" +:+ f +:+ "'") (not_found_message mountpoint (Some f)).
Proof.
  intros Hf. unfold not_found_message, truthy.
  rewrite bool_decide_false by done. cbn [negb default].
  exists ("No active mount found for '" +:+ mountpoint +:+ "'"), "".
  by rewrite !append_assoc.
Qed.

(** C3, at the input where the code departs from it.  In the scenario of
    the specification with the empty string as filter, the record for
    [/data] is rejected by the filter and the failure message is the one of
    a lookup without filter: it does not name the filter, while with the
    filter [xfs] it does. *)
Example device_for_mount_empty_fstype_scenario :
  device_for_mount "/data" [data_record] (Some "")
  = Raise (AnsibleFilterError "No active mount found for '/data'") ∧
  device_for_mount "/data" [data_record] (Some "xfs")
  = Raise (AnsibleFilterError "No active mount found for '/data' with fstype 'xfs'") ∧
  not_found_message "/data" (Some "") = not_found_message "/data" None.
Proof. split; [|split]; vm_compute; reflexivity. Qed.

(** The lookup failure of [device_for_mount] names the mount point, and the
    filter when it is a non-empty string. *)
Theorem device_lookup_failure_message mountpoint fstype mounts :
  Forall well_formed mounts →
  (∀ r, r ∈ mounts → ¬ selects mountpoint fstype r) →
  ∃ msg, device_for_mount mountpoint mounts fstype = Raise (AnsibleFilterError msg) ∧
         contains mountpoint msg ∧
         ∀ f, fstype = Some f → f ≠ "" →
              contains (" with fstype '" +:+ f +:+ "'") msg.
Proof.
  intros Hwf Hnone. exists (not_found_message mountpoint fstype).
  split; [|split].
  - rewrite device_for_mount_well_formed by done. by rewrite filter_selects_nil.
  - apply not_found_message_contains_mountpoint.
  - intros f -> Hf. by apply not_found_message_contains_fstype.
Qed.

(** The lookup failure of [uuid_for_mount] names the mount point. *)
Theorem uuid_lookup_failure_message mountpoint mounts :
  Forall well_formed mounts →
  (∀ r, r ∈ mounts → ¬ has_mount mountpoint r) →
  ∃ msg, uuid_for_mount mountpoint mounts = Raise (AnsibleFilterError msg) ∧
         contains mountpoint msg.
Proof.
  intros Hwf Hnone.
  exists ("No active mount found for '" +:+ mountpoint +:+ "'"). split.
  - rewrite uuid_for_mount_well_formed by done.
    rewrite filter_selects_nil; [done|]. intros r Hr [Hm _]. by apply (Hnone r).
  - apply contains_infix.
Qed.

(** ** Instances on the scenario *)

Ltac well_formed_by_computation :=
  repeat match goal with
    | |- Forall _ _ => constructor
    | |- well_formed _ => unfold well_formed; refine (conj _ (conj _ (conj _ _)))
    | |- is_Some _ => eexists; vm_compute; reflexivity
    end.

Ltac elem_of_cases H :=
  repeat match type of H with
    | _ ∈ _ :: _ => apply elem_of_cons in H as [->|H]
    | _ ∈ [] => by apply elem_of_nil in H
    end.

Lemma device_for_mount_first_match_witness :
  ∃ d, data_record !! "device" = Some d ∧
       device_for_mount "/data" [root_record; data_record; data_record'] None = Ok d.
Proof.
  apply (device_for_mount_first_match "/data"
           [root_record; data_record; data_record'] data_record).
  - well_formed_by_computation.
  - vm_compute. reflexivity.
Defined.

Lemma device_for_mount_fstype_filter_witness :
  device_for_mount "/data" [root_record; data_record] (Some "xfs")
  = Raise (AnsibleFilterError "No active mount found for '/data' with fstype 'xfs'").
Proof.
  apply (device_for_mount_fstype_filter "/data" "xfs" [root_record; data_record]).
  - well_formed_by_computation.
  - intros r Hr [Hm Hf]. elem_of_cases Hr; vm_compute in Hm, Hf; discriminate.
Defined.

Lemma uuid_for_mount_first_match_witness :
  ∃ u d, data_record !! "uuid" = Some u ∧ data_record !! "device" = Some d ∧
         uuid_for_mount "/data" [root_record; data_record; data_record'] = Ok u ∧
         device_for_mount "/data" [root_record; data_record; data_record'] None = Ok d.
Proof.
  apply (uuid_for_mount_first_match "/data"
           [root_record; data_record; data_record']).
  well_formed_by_computation.
Defined.

Lemma device_for_mount_empty_fstype_witness :
  device_for_mount "/data" [root_record; data_record] (Some "")
  = Raise (AnsibleFilterError "No active mount found for '/data'").
Proof.
  apply (proj1 (proj2 (device_for_mount_empty_fstype "/data"
                         [root_record; data_record] ltac:(well_formed_by_computation)))).
  intros r Hr Hm. elem_of_cases Hr; vm_compute; discriminate.
Defined.

Lemma key_error_exactly_on_missing_field_witness :
  device_for_mount "/data" [root_record; data_record] (Some "ext4")
  ≠ Raise (KeyError "fstype") ∧
  uuid_for_mount "/data" [root_record; data_record] ≠ Raise (KeyError "fstype").
Proof.
  apply (key_error_exactly_on_missing_field "/data" (Some "ext4")
           [root_record; data_record]).
  well_formed_by_computation.
Defined.

Lemma device_lookup_failure_message_witness :
  ∃ msg, device_for_mount "/data" [root_record; data_record] (Some "xfs")
         = Raise (AnsibleFilterError msg) ∧
         contains "/data" msg ∧
         ∀ f, Some "xfs" = Some f → f ≠ "" →
              contains (" with fstype '" +:+ f +:+ "'") msg.
Proof.
  apply (device_lookup_failure_message "/data" (Some "xfs")
           [root_record; data_record]).
  - well_formed_by_computation.
  - intros r Hr [Hm Hf]. elem_of_cases Hr; vm_compute in Hm, Hf; discriminate.
Defined.

Lemma uuid_lookup_failure_message_witness :
  ∃ msg, uuid_for_mount "/missing" [root_record; data_record]
         = Raise (AnsibleFilterError msg) ∧
         contains "/missing" msg.
Proof.
  apply (uuid_lookup_failure_message "/missing" [root_record; data_record]).
  - well_formed_by_computation.
  - intros r Hr Hm. elem_of_cases Hr; vm_compute in Hm; discriminate.
Defined.

(** C10, as first stated, fails: [boot_record] has no [fstype], it is
    examined before the first match and a filter is given, yet no
    [KeyError] is raised, because its mount point differs and the [and]
    never reads its [fstype]. *)
Lemma key_error_on_unread_fstype_counterexample :
  boot_record !! "fstype" = None ∧
  matches "/data" (Some "ext4") boot_record = Ok false ∧
  device_for_mount "/data" [boot_record; data_record] (Some "ext4")
  = Ok (VStr "/dev/sda1").
Proof. split; [|split]; vm_compute; reflexivity. Qed.

(** The key errors do occur: a matching record without [fstype], and a
    record without [mount]. *)
Example key_error_fstype :
  device_for_mount "/boot" [data_record; boot_record] (Some "vfat")
  = Raise (KeyError "fstype").
Proof. vm_compute. reflexivity. Qed.

Example key_error_mount :
  uuid_for_mount "/data" [delete "mount" root_record; data_record]
  = Raise (KeyError "mount").
Proof. vm_compute. reflexivity. Qed.

(** ** Further properties of the lookups *)

(** Scanning a concatenation: the first list decides unless its scan falls
    through to the lookup failure, in which case the second list is
    scanned.  Nothing is assumed of the records. *)
Theorem lookup_app mountpoint fstype (l1 l2 : list (gmap string value)) :
  device_for_mount mountpoint (l1 ++ l2) fstype =
    match device_for_mount mountpoint l1 fstype with
    | Raise (AnsibleFilterError _) => device_for_mount mountpoint l2 fstype
    | r => r
    end ∧
  uuid_for_mount mountpoint (l1 ++ l2) =
    match uuid_for_mount mountpoint l1 with
    | Raise (AnsibleFilterError _) => uuid_for_mount mountpoint l2
    | r => r
    end.
Proof.
  split.
  - induction l1 as [|m l1 IH]; [done|].
    rewrite <- app_comm_cons. cbn [device_for_mount].
    destruct (matches mountpoint fstype m) as [[]|e] eqn:Hm; cbn.
    + unfold getitem. by destruct (m !! "device").
    + exact IH.
    + by apply matches_Raise_inv in Hm as (k & -> & _).
  - induction l1 as [|m l1 IH]; [done|].
    rewrite <- app_comm_cons, !uuid_for_mount_cons.
    destruct (matches mountpoint None m) as [[]|e] eqn:Hm; cbn.
    + unfold getitem. by destruct (m !! "uuid").
    + exact IH.
    + by apply matches_Raise_inv in Hm as (k & -> & _).
Qed.

Lemma getitem_same (a b : gmap string value) key :
  a !! key = b !! key → getitem a key = getitem b key.
Proof. unfold getitem. by intros ->. Qed.

Lemma matches_same mountpoint fstype a b :
  a !! "mount" = b !! "mount" → a !! "fstype" = b !! "fstype" →
  matches mountpoint fstype a = matches mountpoint fstype b.
Proof. unfold matches, getitem. by intros -> ->. Qed.

(** [device_for_mount] depends on the records only through the fields it
    reads: lists that agree record by record on [mount], [fstype] and
    [device] get the same outcome, whatever else the records hold. *)
Theorem device_for_mount_fields_read mountpoint fstype l l' :
  Forall2 same_device_fields l l' →
  device_for_mount mountpoint l fstype = device_for_mount mountpoint l' fstype.
Proof.
  induction 1 as [|a b l l' (Hm & Hf & Hd) _ IH]; [done|].
  cbn [device_for_mount].
  by rewrite (matches_same _ _ a b), (getitem_same a b "device"), IH.
Qed.

(** [uuid_for_mount] depends on the records only through [mount] and
    [uuid]; in particular the [fstype] and [device] fields play no part. *)
Theorem uuid_for_mount_fields_read mountpoint l l' :
  Forall2 same_uuid_fields l l' →
  uuid_for_mount mountpoint l = uuid_for_mount mountpoint l'.
Proof.
  induction 1 as [|a b l l' (Hm & Hu) _ IH]; [done|].
  cbn [uuid_for_mount].
  by rewrite (getitem_same a b "mount"), (getitem_same a b "uuid"), IH.
Qed.

(** On records that carry the four fields, a record that satisfies the query
    makes the lookup return a value. *)
Lemma device_for_mount_selected_Ok mountpoint fstype mounts r :
  Forall well_formed mounts → r ∈ mounts → selects mountpoint fstype r →
  ∃ d, device_for_mount mountpoint mounts fstype = Ok d.
Proof.
  intros Hwf Hr Hsel.
  rewrite device_for_mount_well_formed by done.
  destruct (head (filter (selects mountpoint fstype) mounts)) as [r'|] eqn:Hhd.
  - apply head_Some_elem_of, list_elem_of_filter in Hhd as [_ Hr'].
    rewrite Forall_forall in Hwf.
    destruct (Hwf r' Hr') as (_ & [d Hd] & _).
    exists d. by apply getitem_Some.
  - apply head_None in Hhd.
    assert (r ∈ filter (selects mountpoint fstype) mounts) as Hin
      by by apply list_elem_of_filter.
    rewrite Hhd in Hin. by apply elem_of_nil in Hin.
Qed.

(** On records that carry the four fields, [device_for_mount] returns a
    value exactly when some record has the mount point and passes the
    filter. *)
Theorem device_for_mount_succeeds_iff mountpoint fstype mounts :
  Forall well_formed mounts →
  (∃ d, device_for_mount mountpoint mounts fstype = Ok d) ↔
  (∃ r, r ∈ mounts ∧ selects mountpoint fstype r).
Proof.
  intros Hwf. split.
  - intros [d (r & Hr & Hsel & _)%device_for_mount_Ok_inv]. eauto.
  - intros (r & Hr & Hsel). by apply (device_for_mount_selected_Ok _ _ _ r).
Qed.

Lemma matches_unfiltered_false mountpoint f m :
  matches mountpoint None m = Ok false →
  matches mountpoint (Some f) m = Ok false.
Proof.
  unfold matches, getitem.
  destruct (m !! "mount") as [v|]; cbn; [|done].
  by destruct (py_eq v (VStr mountpoint)).
Qed.

(** A filter only restricts the lookup.  If the lookup without filter ends
    in the lookup failure, so does the lookup with any filter, whatever the
    records hold; and on records that carry the four fields, a lookup that
    succeeds with a filter succeeds without it. *)
Theorem fstype_filter_restricts mountpoint f mounts :
  (∀ msg, device_for_mount mountpoint mounts None = Raise (AnsibleFilterError msg) →
     device_for_mount mountpoint mounts (Some f)
     = Raise (AnsibleFilterError (not_found_message mountpoint (Some f)))) ∧
  (Forall well_formed mounts →
   ∀ d, device_for_mount mountpoint mounts (Some f) = Ok d →
     ∃ d', device_for_mount mountpoint mounts None = Ok d').
Proof.
  split.
  - intros msg. induction mounts as [|m rest IH]; [done|].
    cbn [device_for_mount].
    destruct (matches mountpoint None m) as [[]|e] eqn:Hm; cbn.
    + unfold getitem. by destruct (m !! "device").
    + rewrite (matches_unfiltered_false _ f _ Hm). exact IH.
    + intros [= ->]. by apply matches_Raise_inv in Hm as (k & [=] & _).
  - intros Hwf d Hd.
    apply device_for_mount_Ok_inv in Hd as (r & Hr & [Hm _] & _).
    by apply (device_for_mount_selected_Ok _ _ _ r).
Qed.

(** The exceptions a lookup can raise: the lookup failure with the message
    built from the arguments, or a [KeyError] for one of the keys the code
    subscripts, ["fstype"] only when a filter is given.  No other key and no
    other exception. *)
Theorem lookup_exceptions mountpoint fstype mounts :
  (∀ e, device_for_mount mountpoint mounts fstype = Raise e →
     e = AnsibleFilterError (not_found_message mountpoint fstype) ∨
     e = KeyError "mount" ∨ (is_Some fstype ∧ e = KeyError "fstype") ∨
     e = KeyError "device") ∧
  (∀ e, uuid_for_mount mountpoint mounts = Raise e →
     e = AnsibleFilterError ("No active mount found for '" +:+ mountpoint +:+ "'") ∨
     e = KeyError "mount" ∨ e = KeyError "uuid").
Proof.
  split; intros e.
  - induction mounts as [|m rest IH]; cbn [device_for_mount].
    { intros [= <-]. by left. }
    destruct (matches mountpoint fstype m) as [[]|e'] eqn:Hm; cbn; [|exact IH|].
    + unfold getitem. destruct (m !! "device"); [done|]. intros [= <-]. auto.
    + intros [= ->].
      apply matches_Raise_inv in Hm as (k & -> & [[-> _]|(-> & _ & Hf & _)]); auto.
  - induction mounts as [|m rest IH].
    { intros [= <-]. by left. }
    rewrite uuid_for_mount_cons.
    destruct (matches mountpoint None m) as [[]|e'] eqn:Hm; cbn; [|exact IH|].
    + unfold getitem. destruct (m !! "uuid"); [done|]. intros [= <-]. auto.
    + intros [= ->].
      apply matches_Raise_inv in Hm as (k & -> & [[-> _]|(_ & _ & [? [=]] & _)]); auto.
Qed.

(** Whatever the records hold, [uuid_for_mount] and [device_for_mount]
    without filter end in the lookup failure on the same inputs, with the
    same message, and raise [KeyError] for ["mount"] on the same inputs:
    the two scans stop at the same record. *)
Theorem uuid_device_same_scan mountpoint mounts :
  (∀ msg, uuid_for_mount mountpoint mounts = Raise (AnsibleFilterError msg) ↔
          device_for_mount mountpoint mounts None = Raise (AnsibleFilterError msg)) ∧
  (uuid_for_mount mountpoint mounts = Raise (KeyError "mount") ↔
   device_for_mount mountpoint mounts None = Raise (KeyError "mount")).
Proof.
  split; [intros msg|].
  - induction mounts as [|m rest IH]; [done|].
    rewrite uuid_for_mount_cons. cbn [device_for_mount].
    destruct (matches mountpoint None m) as [[]|e] eqn:Hm; cbn; [|exact IH|done].
    unfold getitem. by destruct (m !! "uuid"), (m !! "device").
  - induction mounts as [|m rest IH]; [done|].
    rewrite uuid_for_mount_cons. cbn [device_for_mount].
    destruct (matches mountpoint None m) as [[]|e] eqn:Hm; cbn; [|exact IH|done].
    unfold getitem. by destruct (m !! "uuid"), (m !! "device").
Qed.

(** ** Further properties of the unit name *)

Lemma list_ascii_of_string_app s t :
  list_ascii_of_string (s +:+ t)
  = (list_ascii_of_string s ++ list_ascii_of_string t)%list.
Proof.
  induction s as [|c s IH]; [done|].
  rewrite append_cons. cbn [list_ascii_of_string]. by rewrite IH.
Qed.

Lemma slashes_to_dashes_free_of_slash s : free_of "/" (slashes_to_dashes s).
Proof.
  unfold free_of. induction s as [|c s IH]; cbn [slashes_to_dashes list_ascii_of_string].
  - apply not_elem_of_nil.
  - apply not_elem_of_cons. split; [|done].
    by destruct (Ascii.eqb_spec c "/") as [->|Hne].
Qed.

Lemma slashes_to_dashes_length s :
  String.length (slashes_to_dashes s) = String.length s.
Proof. induction s as [|c s IH]; [done|]. cbn. by rewrite IH. Qed.

Lemma string_length_0 s : String.length s = 0 → s = "".
Proof. by destruct s. Qed.

Lemma strip_leading_slashes_length s :
  String.length (strip_leading_slashes s) ≤ String.length s.
Proof.
  induction s as [|c s IH]; [done|].
  rewrite strip_leading_slashes_cons.
  destruct (Ascii.eqb c "/"); cbn [String.length]; lia.
Qed.

Lemma strip_leading_slashes_empty s :
  strip_leading_slashes s = "" ↔ all_slashes s.
Proof.
  unfold all_slashes. induction s as [|c s IH].
  - split; [constructor|done].
  - rewrite strip_leading_slashes_cons. cbn [list_ascii_of_string].
    rewrite Forall_cons.
    destruct (Ascii.eqb_spec c "/") as [->|Hne]; [tauto|].
    split; [done|]. by intros [? _].
Qed.

Lemma strip_leading_slashes_app s t :
  strip_leading_slashes s ≠ "" →
  strip_leading_slashes (s +:+ t) = strip_leading_slashes s +:+ t.
Proof.
  induction s as [|c s IH]; [done|].
  rewrite append_cons, !strip_leading_slashes_cons.
  destruct (Ascii.eqb c "/"); [exact IH|done].
Qed.

Lemma strip_leading_slashes_free_of c s :
  free_of c s → free_of c (strip_leading_slashes s).
Proof.
  unfold free_of. induction s as [|d s IH]; [done|].
  rewrite strip_leading_slashes_cons. cbn [list_ascii_of_string].
  intros [? ?]%not_elem_of_cons.
  destruct (Ascii.eqb d "/"); [by apply IH|].
  cbn [list_ascii_of_string]. by apply not_elem_of_cons.
Qed.

(** Appending the same suffix is injective. *)
Lemma append_inj_r s s' t : s +:+ t = s' +:+ t → s = s'.
Proof.
  revert s'. induction s as [|c s IH]; intros [|c' s'] Heq.
  - done.
  - apply (f_equal String.length) in Heq.
    rewrite !string_length_app in Heq. cbn [String.length] in Heq. lia.
  - apply (f_equal String.length) in Heq.
    rewrite !string_length_app in Heq. cbn [String.length] in Heq. lia.
  - rewrite !append_cons in Heq. injection Heq as -> Heq.
    f_equal. by apply IH.
Qed.

(** Without dashes in the input, the dashes of the output are the slashes
    of the input. *)
Lemma slashes_to_dashes_inj s s' :
  free_of "-" s → free_of "-" s' →
  slashes_to_dashes s = slashes_to_dashes s' → s = s'.
Proof.
  unfold free_of. revert s'.
  induction s as [|c s IH]; intros [|c' s']; cbn [slashes_to_dashes list_ascii_of_string];
    try done.
  intros [Hc Hs]%not_elem_of_cons [Hc' Hs']%not_elem_of_cons [= Hhd Htl].
  f_equal; [|by apply IH].
  destruct (Ascii.eqb_spec c "/") as [->|?], (Ascii.eqb_spec c' "/") as [->|?];
    congruence.
Qed.

(** The unit name holds no slash at all. *)
Theorem unit_name_free_of_slash path :
  free_of "/" (to_systemd_mount_unit path).
Proof.
  rewrite to_systemd_mount_unit_unfold. unfold unit_name_spec, free_of.
  rewrite list_ascii_of_string_app, not_elem_of_app. split.
  - apply slashes_to_dashes_free_of_slash.
  - cbn. intros Hin.
    repeat (apply elem_of_cons in Hin as [Hin|Hin]; [discriminate|]).
    by apply elem_of_nil in Hin.
Qed.

(** The paths that give the bare suffix [.mount] are exactly those made of
    slashes only, the empty path among them. *)
Theorem unit_name_bare_iff path :
  to_systemd_mount_unit path = ".mount" ↔ all_slashes path.
Proof.
  rewrite to_systemd_mount_unit_unfold, <- strip_leading_slashes_empty.
  unfold unit_name_spec. split.
  - intros Heq%(append_inj_r _ "").
    apply (f_equal String.length) in Heq.
    rewrite slashes_to_dashes_length in Heq. by apply string_length_0.
  - by intros ->.
Qed.

(** On paths without dashes, two paths get the same unit name exactly when
    they differ only in their leading slashes. *)
Theorem unit_name_inj path path' :
  free_of "-" path → free_of "-" path' →
  to_systemd_mount_unit path = to_systemd_mount_unit path' ↔
  lstrip "/" path = lstrip "/" path'.
Proof.
  intros Hp Hp'. rewrite !to_systemd_mount_unit_unfold, !lstrip_slash.
  unfold unit_name_spec. split.
  - intros Heq%append_inj_r.
    by apply slashes_to_dashes_inj in Heq; [|apply strip_leading_slashes_free_of..].
  - by intros ->.
Qed.

(** A path continued: once the path has a character that is not a leading
    slash, what is appended to it is converted on its own.  So a slash and
    a dash at the same place past that character give the same unit name. *)
Theorem unit_name_app path rest :
  lstrip "/" path ≠ "" →
  to_systemd_mount_unit (path +:+ rest)
  = replace "/" "-" (lstrip "/" path) +:+ replace "/" "-" rest +:+ ".mount" ∧
  to_systemd_mount_unit (path +:+ "/" +:+ rest)
  = to_systemd_mount_unit (path +:+ "-" +:+ rest).
Proof.
  intros Hne. rewrite lstrip_slash in Hne.
  assert (∀ t, to_systemd_mount_unit (path +:+ t)
               = replace "/" "-" (lstrip "/" path) +:+ replace "/" "-" t +:+ ".mount")
    as Happ.
  { intros t. rewrite to_systemd_mount_unit_unfold. unfold unit_name_spec.
    rewrite strip_leading_slashes_app, slashes_to_dashes_app by done.
    by rewrite lstrip_slash, !replace_slash_dash, append_assoc. }
  split; [apply Happ|].
  by rewrite !Happ, !replace_slash_dash, !slashes_to_dashes_app.
Qed.

(** The unit name is as long as the path without its leading slashes, plus
    the six characters of the suffix; so never more than six characters
    longer than the path. *)
Theorem unit_name_length path :
  String.length (to_systemd_mount_unit path)
  = String.length (lstrip "/" path) + 6 ∧
  String.length (to_systemd_mount_unit path) ≤ String.length path + 6.
Proof.
  rewrite to_systemd_mount_unit_unfold, lstrip_slash. unfold unit_name_spec.
  rewrite string_length_app, slashes_to_dashes_length. cbn [String.length].
  split; [done|]. pose proof (strip_leading_slashes_length path). lia.
Qed.

(** ** The string methods the conversion calls *)



(** ** Instances of the further properties *)

Ltac not_elem_of_by_computation :=
  let Hin := fresh "Hin" in
  unfold free_of; cbn; intros Hin;
  repeat (apply elem_of_cons in Hin as [Hin|Hin]; [discriminate|]);
  by apply elem_of_nil in Hin.

Lemma device_for_mount_fields_read_witness :
  device_for_mount "/data" [<["size_total" := VInt 1024]> data_record] (Some "ext4")
  = device_for_mount "/data" [data_record] (Some "ext4").
Proof.
  apply device_for_mount_fields_read.
  constructor; [|constructor].
  unfold same_device_fields. repeat split; vm_compute; reflexivity.
Defined.

Lemma uuid_for_mount_fields_read_witness :
  uuid_for_mount "/boot" [<["fstype" := VStr "vfat"]> boot_record]
  = uuid_for_mount "/boot" [boot_record].
Proof.
  apply uuid_for_mount_fields_read.
  constructor; [|constructor].
  unfold same_uuid_fields. split; vm_compute; reflexivity.
Defined.

Lemma device_for_mount_succeeds_iff_witness :
  (∃ d, device_for_mount "/data" [root_record; data_record] (Some "ext4") = Ok d) ↔
  (∃ r, r ∈ [root_record; data_record] ∧ selects "/data" (Some "ext4") r).
Proof.
  apply device_for_mount_succeeds_iff. well_formed_by_computation.
Defined.

Lemma fstype_filter_restricts_witness :
  ∃ d', device_for_mount "/data" [root_record; data_record'] None = Ok d'.
Proof.
  apply (proj2 (fstype_filter_restricts "/data" "xfs" [root_record; data_record'])
           ltac:(well_formed_by_computation) (VStr "/dev/sdb1")).
  vm_compute. reflexivity.
Defined.

Lemma unit_name_inj_witness :
  to_systemd_mount_unit "/mnt/foo" = to_systemd_mount_unit "//mnt/foo" ↔
  lstrip "/" "/mnt/foo" = lstrip "/" "//mnt/foo".
Proof.
  apply unit_name_inj; not_elem_of_by_computation.
Defined.

Lemma unit_name_app_witness :
  to_systemd_mount_unit ("/mnt" +:+ "foo/bar")
  = replace "/" "-" (lstrip "/" "/mnt") +:+ replace "/" "-" "foo/bar" +:+ ".mount" ∧
  to_systemd_mount_unit ("/mnt" +:+ "/" +:+ "foo/bar")
  = to_systemd_mount_unit ("/mnt" +:+ "-" +:+ "foo/bar").
Proof.
  apply unit_name_app. vm_compute. discriminate.
Defined.

(** A trailing slash is kept, as a trailing dash. *)
Example unit_name_trailing_slash :
  to_systemd_mount_unit "/mnt/foo/" = "mnt-foo-.mount".
Proof. vm_compute. reflexivity. Qed.
